(** * Stock report: quantitative trend analysis and sentiment lookup

    A shallow embedding of [app.py] (the Streamlit front end with
    [fetch_and_analyze], [fetch_ai_analysis] and [main]) and of
    [api_service.py] (the FastAPI sentiment endpoint [get_ai_analysis]),
    followed by the properties of the design document stated over it.

    Modelling conventions.
    - A pandas float cell is an [option Q]: [None] is NaN, [Some q] a number.
      Arithmetic is exact (rational); binary rounding is not modelled.
    - Python [str] is [string] (the UTF-8 bytes of the source literals).
    - A Python tuple is a list of Python values, so that the arity of a
      returned tuple is visible to the unpacking assignment in [main].
    - The network ([yf.download], [requests.get]), the clock and the widgets'
      user input are explicit arguments.
    - Each source file ends in a stray shell line ([pip install ...]) that is
      not Python; the functions are embedded as written above it. *)

From Stdlib Require Import QArith Lqa ZArith List Ascii String Lia.
From stdpp Require Import base option list strings gmap.

Local Open Scope string_scope.
Set Warnings "-register-all".


(** ** pandas: float columns, rolling mean, dropna *)

Module Pandas.

(** A float64 cell; [None] is NaN. *)
Abbreviation cell := (option Q).

(** The non-NaN observations of a window. *)
Definition valid_obs (win : list cell) : list Q := omap id win.

Definition Qsum (qs : list Q) : Q := foldr Qplus 0%Q qs.

(** [Series.rolling(window=w)]: the window ending at position [i] holds the
    at most [w] cells at positions [i+1-w .. i]. *)
Definition window_at (w : nat) (xs : list cell) (i : nat) : list cell :=
  take w (drop (i + 1 - w) (take (i + 1) xs)).

(** [.mean()] of one window with [min_periods] left at its default, the
    window size: NaN unless the window holds [w] non-NaN observations. *)
Definition window_mean (w : nat) (win : list cell) : cell :=
  let obs := valid_obs win in
  if (length obs <? w)%nat then None
  else Some (Qsum obs / inject_Z (Z.of_nat (length obs)))%Q.

(** [xs.rolling(window=w).mean()]: one cell per cell of [xs]. *)
Definition rolling_mean (w : nat) (xs : list cell) : list cell :=
  map (fun i => window_mean w (window_at w xs i)) (seq 0 (length xs)).

(** [pd.notna] on one cell. *)
Definition notna (c : cell) : bool :=
  match c with Some _ => true | None => false end.

(** The strict comparison [a > b] on floats. *)
Definition Qgtb (a b : Q) : bool := negb (Qle_bool a b).

End Pandas.

Export Pandas.

(** ** app.py: the quantitative half *)

(** One row of the frame returned by [yf.download]: the [Date] index, the
    [Close] column, and the cells of the columns the analysis never reads
    (Open, High, Low, Volume, ...). *)
Record RawRow : Type := {
  idx_Date : Z;
  Close : cell;
  other_cells : list cell
}.

(** [yf.download] either raises or returns a frame. *)
Inductive download : Type :=
| DownloadRaises
| Downloaded (rows : list RawRow).

(** The frame after [reset_index], [rename] and the two column assignments,
    stored by column; [Other] holds, row by row, the cells of the remaining
    columns. *)
Record DataFrame : Type := {
  Date : list Z;
  Current_Price : list cell;
  MA_Short : list cell;
  MA_Long : list cell;
  Other : list (list cell)
}.

(** A row of a frame without NaN, as [dropna] leaves it. *)
Record CleanRow : Type := {
  row_Date : Z;
  row_Current_Price : Q;
  row_MA_Short : Q;
  row_MA_Long : Q
}.

(** The rows of a frame: the columns aligned by position. *)
Fixpoint frame_rows (ds : list Z) (ps ss ls : list cell)
    (os : list (list cell)) : list (Z * cell * cell * cell * list cell) :=
  match ds, ps, ss, ls, os with
  | d :: ds', p :: ps', s :: ss', l :: ls', o :: os' =>
      (d, p, s, l, o) :: frame_rows ds' ps' ss' ls' os'
  | _, _, _, _, _ => []
  end.

(** A row survives [dropna] when none of its cells is NaN. *)
Definition clean_row (r : Z * cell * cell * cell * list cell)
  : option CleanRow :=
  match r with
  | (d, Some p, Some s, Some l, o) =>
      if forallb notna o
      then Some {| row_Date := d; row_Current_Price := p;
                   row_MA_Short := s; row_MA_Long := l |}
      else None
  | _ => None
  end.

(** [df.dropna()]: the rows in which no cell is NaN, in order. *)
Definition dropna (df : DataFrame) : list CleanRow :=
  omap clean_row
       (frame_rows (Date df) (Current_Price df) (MA_Short df) (MA_Long df)
                   (Other df)).

(** Python values that [fetch_and_analyze] returns. *)
Inductive pyval : Type :=
| PyNone
| PyStr (s : string)
| PyFrame (df : DataFrame).

Definition trend_bullish : string := "看漲".
Definition trend_bearish : string := "看跌/盤整".
Definition trend_na : string := "N/A".
Definition desc_insufficient : string := "數據不足，無法計算。".
Definition desc_ma : string := "短期 (5日) vs 長期 (20日) 均線趨勢。".
Definition msg_no_data : string := "無法獲取股價數據。".
Definition msg_fetch_failed : string := "數據抓取失敗，請檢查代碼或網路。".

(** Lines 29-31: the frame with its two moving-average columns. *)
Definition analyze_frame (rows : list RawRow) : DataFrame :=
  let price := map Close rows in
  {| Date := map idx_Date rows;
     Current_Price := price;
     MA_Short := rolling_mean 5 price;
     MA_Long := rolling_mean 20 price;
     Other := map other_cells rows |}.

(** Lines 34-41: the trend read off the last row of [df.dropna()]. *)
Definition quant (df : DataFrame) : string * string :=
  match last (dropna df) with
  | None => (trend_na, desc_insufficient)
  | Some r =>
      ((if Qgtb (row_MA_Short r) (row_MA_Long r)
        then trend_bullish else trend_bearish),
       desc_ma)
  end.

(** [fetch_and_analyze(ticker)], as a function of what [yf.download] does.
    The result is the returned tuple. *)
Definition fetch_and_analyze (dl : download) : list pyval :=
  match dl with
  | DownloadRaises => [PyNone; PyStr msg_fetch_failed]
  | Downloaded rows =>
      match rows with
      | [] => [PyNone; PyStr msg_no_data]
      | _ =>
          let df := analyze_frame rows in
          let '(quant_trend, quant_desc) := quant df in
          [PyFrame df; PyStr quant_trend; PyStr quant_desc]
      end
  end.

(** The price series of the design document: one defined close per date. *)
Record PricePoint : Type := { date : Z; close : Q }.

(** The raw row of a price point: rows of (date, close), nothing else. *)
Definition to_raw (p : PricePoint) : RawRow :=
  {| idx_Date := date p; Close := Some (close p); other_cells := [] |}.

Definition series_rows (series : list PricePoint) : list RawRow :=
  map to_raw series.

(** ** Strings *)

(** Does the string contain the character? *)
Fixpoint has_char (c : ascii) (s : string) : bool :=
  match s with
  | EmptyString => false
  | String a r => if Ascii.eqb a c then true else has_char c r
  end.

(** The rest of [s] after the leading [p], when [s] starts with [p]. *)
Fixpoint strip_prefix (p s : string) : option string :=
  match p with
  | EmptyString => Some s
  | String a p' =>
      match s with
      | EmptyString => None
      | String b s' => if Ascii.eqb a b then strip_prefix p' s' else None
      end
  end.

(** [s.replace(old, new)] for a non-empty [old]: a left-to-right scan over
    non-overlapping occurrences; [skip] counts the characters of a matched
    occurrence still to be dropped. *)
Fixpoint replace_from (old new : string) (skip : nat) (s : string) : string :=
  match s with
  | EmptyString => EmptyString
  | String c r =>
      match skip with
      | S k => replace_from old new k r
      | O =>
          if String.prefix old s
          then new +:+ replace_from old new (String.length old - 1) r
          else String c (replace_from old new 0 r)
      end
  end.

Definition str_replace (old new s : string) : string :=
  replace_from old new 0 s.

(** [s] occurs inside [t]. *)
Definition contains (s t : string) : Prop :=
  exists pre post : string, t = pre +:+ s +:+ post.

(** Upper-casing of the ASCII letters, the instance of [str.upper] used for
    concrete runs. *)
Definition ascii_upper_char (c : ascii) : ascii :=
  let n := nat_of_ascii c in
  if ((97 <=? n) && (n <=? 122))%nat then ascii_of_nat (n - 32) else c.

Fixpoint ascii_upper (s : string) : string :=
  match s with
  | EmptyString => EmptyString
  | String c r => String (ascii_upper_char c) (ascii_upper r)
  end.

(** ** api_service.py *)

(** One value of [MOCK_AI_DATABASE]. *)
Record Analysis : Type := {
  db_emotion : string;
  db_conclusion : string;
  db_positive_news : list string;
  db_negative_news : list string
}.

Definition MOCK_AI_DATABASE : gmap string Analysis :=
  <[ "2330.TW" :=
       {| db_emotion := "強烈看漲";
          db_conclusion :=
            "AI 需求爆發，法說會展望樂觀，長期技術領先優勢強勁。";
          db_positive_news :=
            ["Q3 財報超預期，AI 需求是主要動能。"; "多家券商調高目標價。"];
          db_negative_news := ["短期股價漲多，有技術性整理壓力。"] |} ]>
  (<[ "00878.TW" :=
       {| db_emotion := "中性偏看漲";
          db_conclusion := "ETF 結構具備成長與防禦，基本面支撐趨勢向上。";
          db_positive_news :=
            ["AI + 金融雙動能。"; "規模穩定成長，填息率穩定。"];
          db_negative_news := ["需關注配息波動。"] |} ]>
  (<[ "0050.TW" :=
       {| db_emotion := "中性偏看漲";
          db_conclusion :=
            "核心資產優勢和台積電支撐，儘管短期有調節，長期仍具穩健成長動力。";
          db_positive_news :=
            ["規模朝兆元級 ETF 前進。"; "台積電權重高，受惠 AI 浪潮。"];
          db_negative_news := ["近期外資持續賣超。"] |} ]> ∅)).

(** The response model, fields in declaration order. *)
Record AIAnalysisResponse : Type := {
  ticker : string;
  timestamp : string;
  emotion : string;
  conclusion : string;
  positive_news : list string;
  negative_news : list string
}.

Definition emotion_neutral : string := "中性".

(** JSON documents. *)
Inductive json : Type :=
| JString (s : string)
| JArray (items : list json)
| JObject (fields : list (string * json)).

(** The body FastAPI serialises from the response model. *)
Definition to_json (r : AIAnalysisResponse) : json :=
  JObject
    [("ticker", JString (ticker r));
     ("timestamp", JString (timestamp r));
     ("emotion", JString (emotion r));
     ("conclusion", JString (conclusion r));
     ("positive_news", JArray (map JString (positive_news r)));
     ("negative_news", JArray (map JString (negative_news r)))].

Definition json_keys (j : json) : list string :=
  match j with
  | JObject fields => map fst fields
  | _ => []
  end.

Inductive http_method : Type := GET | HEAD | POST | PUT | DELETE.

(** A path template [prefix{param}]: the parameter is one non-empty path
    segment. *)
Definition path_param (prefix path : string) : option string :=
  match strip_prefix prefix path with
  | Some seg =>
      if has_char "/"%char seg then None
      else match seg with EmptyString => None | _ => Some seg end
  | None => None
  end.

Section WithUpper.

(** [str.upper]; its case table belongs to the Python runtime. *)
Variable upper : string -> string.

(** [get_ai_analysis(ticker)]; [now] is the formatted [datetime.now()]. *)
Definition get_ai_analysis (ticker now : string) : AIAnalysisResponse :=
  let ticker := upper ticker in
  match MOCK_AI_DATABASE !! ticker with
  | Some data =>
      {| ticker := ticker;
         timestamp := now;
         emotion := db_emotion data;
         conclusion := db_conclusion data;
         positive_news := db_positive_news data;
         negative_news := db_negative_news data |}
  | None =>
      {| ticker := ticker;
         timestamp := now;
         emotion := emotion_neutral;
         conclusion :=
           "AI 分析庫暫無 " +:+ ticker +:+ " 的文本數據，僅提供量化分析。";
         positive_news := [];
         negative_news := [] |}
  end.

(** The endpoints this module registers on the application: the status and
    body of the answer, or [None] when no endpoint of the module matches the
    request. *)
Definition serve (m : http_method) (path now : string) : option (nat * json) :=
  match m, path_param "/api/analyze/" path with
  | GET, Some t => Some (200%nat, to_json (get_ai_analysis t now))
  | _, _ => None
  end.

End WithUpper.

(** ** app.py: the Streamlit script *)

Inductive exn : Type :=
| ValueError | TypeError | IndexError | AttributeError.

(** How one run of the script ends: it runs to its end (or returns),
    [st.rerun()] restarts it, or an exception escapes [main]. *)
Inductive ending : Type :=
| Completed
| Rerun
| Uncaught (e : exn).

Inductive metric_value : Type :=
| MPrice (c : cell)
| MDate (d : Z).

(** What the script puts on the page, in order. *)
Inductive widget : Type :=
| PageConfig (page_title : string)
| Title (s : string)
| Markdown (s : string)
| Info (s : string)
| TextInput (label value : string)
| Button (label : string)
| Header (s : string)
| Caption (s : string)
| Metric (label : string) (v : metric_value)
| Subheader (s : string)
| Table (rows : list (pyval * pyval * pyval))
| Success (s : string)
| Error (s : string)
| LineChart (rows : list CleanRow).

(** [st.session_state] and the page rendered so far. *)
Record ui_state : Type := {
  session : gmap string string;
  screen : list widget
}.

(** Script fragments: they read and write the state and either yield a value
    or end the run. *)
Definition UI (A : Type) : Type := ui_state -> (A + ending) * ui_state.

#[global] Instance UI_ret : MRet UI := fun A a st => (inl a, st).
#[global] Instance UI_bind : MBind UI := fun A B f m st =>
  match m st with
  | (inl a, st') => f a st'
  | (inr e, st') => (inr e, st')
  end.

Definition halt {A : Type} (e : ending) : UI A := fun st => (inr e, st).
Definition raise {A : Type} (e : exn) : UI A := halt (Uncaught e).

Definition emit (w : widget) : UI unit := fun st =>
  (inl tt, {| session := session st; screen := screen st ++ [w] |}).

Definition has_key (k : string) : UI bool := fun st =>
  (inl (bool_decide (is_Some (session st !! k))), st).

(** [st.session_state.k]: a missing key raises AttributeError. *)
Definition attr (k : string) : UI string := fun st =>
  match session st !! k with
  | Some v => (inl v, st)
  | None => (inr (Uncaught AttributeError), st)
  end.

Definition set_attr (k v : string) : UI unit := fun st =>
  (inl tt, {| session := <[k := v]> (session st); screen := screen st |}).

(** [a, b, c = t]: any other arity raises ValueError. *)
Definition unpack3 (t : list pyval) : UI (pyval * pyval * pyval) :=
  match t with
  | [a; b; c] => mret (a, b, c)
  | _ => raise ValueError
  end.

(** [col.iloc[-1]] *)
Definition iloc_last {A : Type} (col : list A) : UI A :=
  match last col with
  | Some x => mret x
  | None => raise IndexError
  end.

(** What [requests.get] does: it raises [ConnectionError], raises something
    else, or answers with a status and a body ([None]: a body that is not
    JSON; otherwise the decoded response model of the service). *)
Inductive requests_get : Type :=
| GetConnectionError
| GetRaises
| GetResponse (status : nat) (body : option AIAnalysisResponse).

Definition API_BASE_URL : string := "http://127.0.0.1:8000".
Definition msg_api_down : string :=
  "❌ **API 連接失敗！** 請確保 **FastAPI 服務 (api_service.py)** 已經運行。".
Definition msg_api_error : string := "❌ AI 文本分析服務錯誤。".
Definition label_generate : string := "🔍 生成自動化分析報告".
Definition label_back : string := "⬅️ 回上一頁 / 重新輸入".

(** The user and the outside world during one run. [http url] is the outcome
    of [requests.get(url)], [yf ticker] that of [yf.download(ticker, ...)]. *)
Record inputs : Type := {
  typed : option string;
  clicked : string -> bool;
  yf : string -> download;
  http : string -> requests_get;
  now : string
}.

(** [fetch_ai_analysis(ticker)] *)
Definition fetch_ai_analysis (inp : inputs) (ticker : string)
  : UI (option AIAnalysisResponse) :=
  match http inp (API_BASE_URL +:+ "/api/analyze/" +:+ ticker) with
  | GetConnectionError => emit (Error msg_api_down);; mret None
  | GetRaises => emit (Error msg_api_error);; mret None
  | GetResponse status body =>
      if ((400 <=? status) && (status <? 600))%nat
      then emit (Error msg_api_error);; mret None
      else match body with
           | Some r => mret (Some r)
           | None => emit (Error msg_api_error);; mret None
           end
  end.

(** The frame behind a value subscripted as [df[...]]. *)
Definition as_frame (v : pyval) : UI DataFrame :=
  match v with
  | PyFrame df => mret df
  | _ => raise TypeError
  end.

Section Script.

Variable upper : string -> string.

(** The input page of [main]. *)
Definition input_page (inp : inputs) : UI unit :=
  emit (Info ("✅ **系統要求:** 請確保後端 API 服務已在 " +:+ API_BASE_URL
              +:+ " 運行。"));;
  cur ← attr "ticker";
  emit (TextInput "1️⃣ 輸入股票代碼 (例: 2330.TW, 00878.TW)" cur);;
  set_attr "ticker" (upper (default cur (typed inp)));;
  emit (Button label_generate);;
  if clicked inp label_generate
  then set_attr "page" "report";; halt Rerun
  else mret tt.

(** The report once both halves are there. *)
Definition show_report (inp : inputs) (tkr : string)
    (df : DataFrame) (quant_trend quant_desc : pyval)
    (ai : AIAnalysisResponse) : UI unit :=
  let stock_name := str_replace ".TW" "" (ticker ai) in
  price ← iloc_last (Current_Price df);
  day ← iloc_last (Date df);
  emit (Header ("📊 " +:+ tkr +:+ " " +:+ stock_name +:+ " 最終分析報告"));;
  emit (Caption ("發布時間：" +:+ now inp +:+ " CST"));;
  emit (Metric "最新收盤價" (MPrice price));;
  emit (Metric "最新交易日" (MDate day));;
  emit (Markdown "**⚡️ 綜合結論：**");;
  emit (Markdown ("## " +:+ emotion ai));;
  emit (Markdown "---");;
  emit (Subheader "趨勢判斷與分析");;
  emit (Table
          [(PyStr "量化分析", quant_trend, quant_desc);
           (PyStr "AI 文本分析", PyStr (emotion ai), PyStr (conclusion ai));
           (PyStr "綜合結論", PyStr (emotion ai), PyStr (conclusion ai))]);;
  emit (Subheader "📰 即時新聞摘要 (AI 情感分析)");;
  emit (Success "**✅ 正面/利多消息：**");;
  mapM (fun item => emit (Markdown ("- " +:+ item))) (positive_news ai);;
  emit (Error "**🔴 負面/需注意消息：**");;
  mapM (fun item => emit (Markdown ("- " +:+ item))) (negative_news ai);;
  emit (Markdown "---");;
  emit (Subheader "股價與均線走勢圖");;
  emit (LineChart (dropna df));;
  emit (Button label_back);;
  if clicked inp label_back
  then set_attr "page" "input";; halt Rerun
  else mret tt.

(** The report page of [main]. *)
Definition report_page (inp : inputs) : UI unit :=
  ticker ← attr "ticker";
  '(df, quant_trend, quant_desc) ← unpack3 (fetch_and_analyze (yf inp ticker));
  ai_analysis_result ← fetch_ai_analysis inp ticker;
  match df, ai_analysis_result with
  | PyNone, _ | _, None =>
      emit (Button label_back);;
      (if clicked inp label_back
       then set_attr "page" "input";; halt Rerun
       else mret tt);;
      halt Completed
  | _, Some ai =>
      frame ← as_frame df;
      show_report inp ticker frame quant_trend quant_desc ai
  end.

(** [main()] *)
Definition main (inp : inputs) : UI unit :=
  emit (PageConfig "小寶 AI 股市分析工具");;
  emit (Title "🤖 小寶 AI 股市分析工具 (全自動化版)");;
  emit (Markdown "---");;
  known ← has_key "page";
  (if known : bool then mret tt
   else set_attr "page" "input";; set_attr "ticker" "2330.TW");;
  page ← attr "page";
  if String.eqb page "input" then input_page inp
  else if String.eqb page "report" then report_page inp
  else mret tt.

(** One run of the script from a session state: how it ends, the session
    state it leaves and the page it rendered. *)
Definition run_main (inp : inputs) (ss : gmap string string)
  : ending * gmap string string * list widget :=
  match main inp {| session := ss; screen := [] |} with
  | (inl _, st) => (Completed, session st, screen st)
  | (inr e, st) => (e, session st, screen st)
  end.

End Script.

(** ** Vocabulary of the design document *)

(** The closing prices of a series, oldest first. *)
Definition closes (series : list PricePoint) : list Q := map close series.




(** Dates are pairwise distinct and ascending. *)
Fixpoint dates_ascending (ds : list Z) : Prop :=
  match ds with
  | a :: ((b :: _) as rest) => (a < b)%Z /\ dates_ascending rest
  | _ => True
  end.

(** The price-history fetch fails: the transport raises, or the source has no
    rows for the symbol. *)
Definition fetch_fails (dl : download) : Prop :=
  dl = DownloadRaises \/ dl = Downloaded [].

(** The same run with another outcome of the sentiment request. *)
Definition with_http (inp : inputs) (h : string -> requests_get) : inputs :=
  {| typed := typed inp; clicked := clicked inp; yf := yf inp;
     http := h; now := now inp |}.

(** The widgets that only the report puts on the page. *)
Definition report_widget (w : widget) : bool :=
  match w with
  | Header _ | Caption _ | Metric _ _ | Subheader _ | Table _
  | Success _ | LineChart _ => true
  | _ => false
  end.

(** What every run renders before it looks at the page state. *)
Definition page_head : list widget :=
  [PageConfig "小寶 AI 股市分析工具";
   Title "🤖 小寶 AI 股市分析工具 (全自動化版)";
   Markdown "---"].

(** The field names of the response body. *)
Definition response_fields : list string :=
  ["ticker"; "timestamp"; "emotion"; "conclusion";
   "positive_news"; "negative_news"].

(** ** Concrete runs *)

(** The session state of the report page for a symbol. *)
Definition report_session (symbol : string) : gmap string string :=
  <["page" := "report"]> (<["ticker" := symbol]> ∅).

(** A day on which the market-data source has no rows and the sentiment
    service answers from its table. *)
Definition no_rows_day : inputs :=
  {| typed := None;
     clicked := fun _ => false;
     yf := fun _ => Downloaded [];
     http := fun _ =>
       GetResponse 200
         (Some (get_ai_analysis ascii_upper "2330.TW" "2024-01-02 09:00:00"));
     now := "2024-01-02 09:00:00" |}.

(** Twenty days, numbered from 0, closing at [f] of the day number. *)
Definition twenty_days (f : Z -> Q) : list PricePoint :=
  map (fun i => {| date := Z.of_nat i; close := f (Z.of_nat i) |}) (seq 0 20).

Definition rising_series : list PricePoint :=
  twenty_days (fun i => inject_Z (500 + 5 * i)).

(** A raw response with a repeated and an out-of-order date. *)
Definition unordered_rows : list RawRow :=
  [ {| idx_Date := 3; Close := Some 10%Q; other_cells := [] |};
    {| idx_Date := 1; Close := Some 11%Q; other_cells := [] |};
    {| idx_Date := 1; Close := Some 12%Q; other_cells := [] |} ].

(** Three days of a rising market: too few for the long window. *)
Definition short_series : list PricePoint := take 3 rising_series.

(** ** Vocabulary for whole runs *)

(** The same run against another market-data source and sentiment service. *)
Definition with_network (inp : inputs) (y : string -> download)
    (h : string -> requests_get) : inputs :=
  {| typed := typed inp; clicked := clicked inp; yf := y; http := h;
     now := now inp |}.

(** The session state holds both keys the script reads. *)
Definition session_ready (ss : gmap string string) : Prop :=
  is_Some (ss !! "page") /\ is_Some (ss !! "ticker").

(** The widgets of the input page, for the ticker shown in the text box. *)
Definition input_widgets (cur : string) : list widget :=
  [Info ("✅ **系統要求:** 請確保後端 API 服務已在 " +:+ API_BASE_URL
         +:+ " 運行。");
   TextInput "1️⃣ 輸入股票代碼 (例: 2330.TW, 00878.TW)" cur;
   Button label_generate].

(** The widgets of a rendered report, in order: header and caption, the three
    metrics, the table, the news and the chart, and the button back. *)
Definition report_widgets (inp : inputs) (tkr : string) (df : DataFrame)
    (quant_trend quant_desc : pyval) (ai : AIAnalysisResponse)
    (price : cell) (day : Z) : list widget :=
  [Header ("📊 " +:+ tkr +:+ " " +:+ str_replace ".TW" "" (ticker ai)
           +:+ " 最終分析報告");
   Caption ("發布時間：" +:+ now inp +:+ " CST");
   Metric "最新收盤價" (MPrice price);
   Metric "最新交易日" (MDate day);
   Markdown "**⚡️ 綜合結論：**";
   Markdown ("## " +:+ emotion ai);
   Markdown "---";
   Subheader "趨勢判斷與分析";
   Table
     [(PyStr "量化分析", quant_trend, quant_desc);
      (PyStr "AI 文本分析", PyStr (emotion ai), PyStr (conclusion ai));
      (PyStr "綜合結論", PyStr (emotion ai), PyStr (conclusion ai))];
   Subheader "📰 即時新聞摘要 (AI 情感分析)";
   Success "**✅ 正面/利多消息：**"]
  ++ map (fun item => Markdown ("- " +:+ item)) (positive_news ai)
  ++ [Error "**🔴 負面/需注意消息：**"]
  ++ map (fun item => Markdown ("- " +:+ item)) (negative_news ai)
  ++ [Markdown "---";
      Subheader "股價與均線走勢圖";
      LineChart (dropna df);
      Button label_back].

(** What the sentiment request amounts to for the report page: the decoded
    body, or the error message the client renders. *)
Definition sentiment_of (r : requests_get) : AIAnalysisResponse + string :=
  match r with
  | GetConnectionError => inr msg_api_down
  | GetRaises => inr msg_api_error
  | GetResponse status body =>
      if ((400 <=? status) && (status <? 600))%nat then inr msg_api_error
      else match body with
           | Some b => inl b
           | None => inr msg_api_error
           end
  end.

(** A trading day with twenty rising closes behind it, on which the sentiment
    service answers from its table. *)
Definition rising_day : inputs :=
  {| typed := None;
     clicked := fun _ => false;
     yf := fun _ => Downloaded (series_rows rising_series);
     http := fun _ =>
       GetResponse 200
         (Some (get_ai_analysis ascii_upper "2330.TW" "2024-01-02 09:00:00"));
     now := "2024-01-02 09:00:00" |}.


(** The user leaves [text] in the text box and clicks the button [label]. *)
Definition user_does (inp : inputs) (text : option string) (label : string)
  : inputs :=
  {| typed := text; clicked := String.eqb label; yf := yf inp;
     http := http inp; now := now inp |}.

(** The session state of the input page for a symbol. *)
Definition input_session (symbol : string) : gmap string string :=
  <["page" := "input"]> (<["ticker" := symbol]> ∅).




(** The session state is on one of the two pages of the script. *)
Definition known_page (ss : gmap string string) : Prop :=
  ss !! "page" = Some "input" \/ ss !! "page" = Some "report".

(** ** Rolling means *)

Lemma map_fmap {A B : Type} (f : A -> B) (l : list A) : map f l = f <$> l.
Proof. reflexivity. Qed.

Lemma length_rolling_mean (w : nat) (xs : list cell) :
  length (rolling_mean w xs) = length xs.
Proof. unfold rolling_mean. rewrite length_map, length_seq. reflexivity. Qed.

Lemma rolling_mean_lookup (w : nat) (xs : list cell) (i : nat) :
  (i < length xs)%nat ->
  rolling_mean w xs !! i = Some (window_mean w (window_at w xs i)).
Proof.
  intros Hi. unfold rolling_mean. rewrite map_fmap, list_lookup_fmap.
  rewrite lookup_seq_lt by exact Hi. reflexivity.
Qed.

Lemma valid_obs_defined (qs : list Q) : valid_obs (map Some qs) = qs.
Proof.
  unfold valid_obs. induction qs as [|q qs IH]; simpl; [reflexivity|].
  f_equal. exact IH.
Qed.

Lemma window_at_defined (w : nat) (qs : list Q) (i : nat) :
  window_at w (map Some qs) i
  = map Some (take w (drop (i + 1 - w) (take (i + 1) qs))).
Proof.
  unfold window_at. rewrite !map_fmap, !fmap_take, !fmap_drop, !fmap_take.
  reflexivity.
Qed.

Lemma length_window (A : Type) (w i : nat) (l : list A) :
  (i < length l)%nat ->
  length (take w (drop (i + 1 - w) (take (i + 1) l))) = Nat.min w (i + 1).
Proof.
  intros Hi. rewrite length_take, length_drop, length_take. lia.
Qed.

Lemma window_full (A : Type) (w i : nat) (l : list A) :
  (w <= i + 1)%nat ->
  take w (drop (i + 1 - w) (take (i + 1) l)) = take w (drop (i + 1 - w) l).
Proof.
  intros Hw. rewrite skipn_firstn_comm, take_take.
  f_equal. lia.
Qed.

(** The rolling mean over a column without NaN: undefined until the window is
    full, then the mean of the [w] most recent values. *)
Lemma rolling_mean_defined (w : nat) (qs : list Q) (i : nat) :
  (i < length qs)%nat ->
  rolling_mean w (map Some qs) !! i
  = Some (if (i + 1 <? w)%nat then None
          else Some (Qsum (take w (drop (i + 1 - w) qs))
                     / inject_Z (Z.of_nat w))%Q).
Proof.
  intros Hi. rewrite rolling_mean_lookup by (rewrite length_map; exact Hi).
  f_equal. unfold window_mean.
  rewrite window_at_defined, valid_obs_defined, length_window by exact Hi.
  destruct (Nat.ltb_spec (i + 1) w) as [Hlt|Hge].
  - replace (Nat.min w (i + 1)) with (i + 1)%nat by lia.
    apply Nat.ltb_lt in Hlt. rewrite Hlt. reflexivity.
  - replace (Nat.min w (i + 1)) with w by lia.
    rewrite Nat.ltb_irrefl, window_full by exact Hge. reflexivity.
Qed.

Lemma price_column (series : list PricePoint) :
  map Close (series_rows series) = map Some (closes series).
Proof.
  unfold series_rows, closes. rewrite !map_map. reflexivity.
Qed.

Lemma length_closes (series : list PricePoint) :
  length (closes series) = length series.
Proof. apply length_map. Qed.


Lemma MA_Long_series (series : list PricePoint) (i : nat) :
  (i < length series)%nat ->
  MA_Long (analyze_frame (series_rows series)) !! i
  = Some (if (i + 1 <? 20)%nat then None
          else Some (Qsum (take 20 (drop (i + 1 - 20) (closes series)))
                     / inject_Z (Z.of_nat 20))%Q).
Proof.
  intros Hi. simpl. rewrite price_column.
  apply rolling_mean_defined. rewrite length_closes. exact Hi.
Qed.

(** ** Moving-average columns *)


(** ** Rows of the analysed frame and [dropna] *)

Lemma frame_rows_lookup (ds : list Z) (ps ss ls : list cell)
    (os : list (list cell)) (i : nat) :
  frame_rows ds ps ss ls os !! i
  = match ds !! i, ps !! i, ss !! i, ls !! i, os !! i with
    | Some d, Some p, Some s, Some l, Some o => Some (d, p, s, l, o)
    | _, _, _, _, _ => None
    end.
Proof.
  revert ps ss ls os i.
  induction ds as [|d ds IH]; intros ps ss ls os i.
  - destruct i; reflexivity.
  - destruct ps as [|p ps], ss as [|s ss], ls as [|l ls], os as [|o os],
      i as [|i];
      simpl; rewrite ?IH; repeat case_match; congruence.
Qed.



Lemma omap_all_None {A B : Type} (f : A -> option B) (l : list A) :
  (forall (i : nat) (x : A), l !! i = Some x -> f x = None) -> omap f l = [].
Proof.
  induction l as [|a l IH]; intros H; [reflexivity|].
  simpl. rewrite (H 0%nat a eq_refl). apply IH.
  intros i x Hx. apply (H (S i)). exact Hx.
Qed.


(** ** The trend signal *)



Lemma fetch_success (rows : list RawRow) :
  rows <> [] ->
  fetch_and_analyze (Downloaded rows)
  = [PyFrame (analyze_frame rows);
     PyStr (fst (quant (analyze_frame rows)));
     PyStr (snd (quant (analyze_frame rows)))].
Proof.
  intros Hne. unfold fetch_and_analyze.
  destruct rows as [|r rows]; [congruence|].
  destruct (quant (analyze_frame (r :: rows))) as [t d]. reflexivity.
Qed.

Lemma series_rows_nonempty (series : list PricePoint) :
  series <> [] -> series_rows series <> [].
Proof. destruct series; [congruence | discriminate]. Qed.


(** With fewer than 20 points no row survives [dropna]. *)
Lemma quant_short (series : list PricePoint) :
  (length series < 20)%nat ->
  quant (analyze_frame (series_rows series)) = (trend_na, desc_insufficient).
Proof.
  intros Hlen. unfold quant, dropna.
  rewrite omap_all_None; [reflexivity|].
  intros i [[[[d p] s] l] o] Hrow.
  rewrite frame_rows_lookup in Hrow.
  destruct (Date _ !! i) eqn:Hd; [|discriminate].
  assert (Hi : (i < length series)%nat).
  { apply lookup_lt_Some in Hd. simpl in Hd. unfold series_rows in Hd.
    rewrite !length_map in Hd. exact Hd. }
  rewrite (MA_Long_series series i Hi) in Hrow.
  destruct (Nat.ltb_spec (i + 1) 20) as [_|Hge]; [|lia].
  repeat case_match; simplify_eq. destruct p, s; reflexivity.
Qed.








(** ** The report page *)

Lemma fetch_fails_tuple (dl : download) :
  fetch_fails dl ->
  exists msg : string, fetch_and_analyze dl = [PyNone; PyStr msg].
Proof. intros [-> | ->]; eexists; reflexivity. Qed.

(** A run on the report page stops at the unpacking assignment when the
    returned tuple has two elements. *)
Lemma run_main_failed_fetch (upper : string -> string) (inp : inputs)
    (ss : gmap string string) (symbol : string) :
  ss !! "page" = Some "report" ->
  ss !! "ticker" = Some symbol ->
  fetch_fails (yf inp symbol) ->
  run_main upper inp ss = (Uncaught ValueError, ss, page_head).
Proof.
  intros Hpage Hticker Hfail.
  destruct (fetch_fails_tuple _ Hfail) as [msg Htuple].
  unfold run_main, main, report_page.
  unfold mbind, UI_bind, emit, has_key, attr. simpl.
  rewrite Hpage. simpl. rewrite Hpage. simpl.
  rewrite Hticker. simpl. rewrite Htuple. reflexivity.
Qed.

(** C10. On every failure path (the download raises, or the downloaded frame
    is empty) [fetch_and_analyze] returns the 2-tuple (None, message), and on
    success the 3-tuple (df, trend, description); so on the report page the
    three-variable unpacking raises ValueError on every failure input: the run
    ends there, before the sentiment request and before the branch that tests
    [df is None], with nothing but the page head rendered. *)
Theorem failure_tuple_breaks_unpacking (upper : string -> string)
    (inp : inputs) (ss : gmap string string) (symbol : string) :
  ss !! "page" = Some "report" ->
  ss !! "ticker" = Some symbol ->
  (forall dl : download, fetch_fails dl ->
     exists msg : string, fetch_and_analyze dl = [PyNone; PyStr msg]) /\
  (forall rows : list RawRow, rows <> [] ->
     exists (df : DataFrame) (trend desc : string),
       fetch_and_analyze (Downloaded rows)
       = [PyFrame df; PyStr trend; PyStr desc]) /\
  (fetch_fails (yf inp symbol) ->
     run_main upper inp ss = (Uncaught ValueError, ss, page_head) /\
     ~ In (Button label_back) page_head).
Proof.
  intros Hpage Hticker. split; [|split].
  - apply fetch_fails_tuple.
  - intros rows Hne. rewrite (fetch_success rows Hne). eauto.
  - intros Hfail. split.
    + exact (run_main_failed_fetch upper inp ss symbol Hpage Hticker Hfail).
    + simpl. intros [H|[H|[H|[]]]]; discriminate H.
Qed.

(** C5. Whenever the price-history fetch fails (no rows for the symbol, or
    the transport raises), the report page ends in an error and shows no
    report; whatever the sentiment service would answer has no influence on
    the outcome. *)
Theorem failed_price_fetch_fails_report (upper : string -> string)
    (inp : inputs) (ss : gmap string string) (symbol : string) :
  ss !! "page" = Some "report" ->
  ss !! "ticker" = Some symbol ->
  fetch_fails (yf inp symbol) ->
  (exists e : exn, (run_main upper inp ss).1.1 = Uncaught e) /\
  forallb (fun w => negb (report_widget w)) (run_main upper inp ss).2 = true /\
  (forall h : string -> requests_get,
     run_main upper (with_http inp h) ss = run_main upper inp ss).
Proof.
  intros Hpage Hticker Hfail.
  rewrite (run_main_failed_fetch upper inp ss symbol Hpage Hticker Hfail).
  split; [eexists; reflexivity|]. split; [reflexivity|].
  intros h. apply run_main_failed_fetch with (symbol := symbol); assumption.
Qed.

(** C4, refuted as stated: for an empty download the returned tuple carries no
    trend signal at all, and the report page ends in an uncaught ValueError. *)
Lemma empty_series_not_undetermined :
  (forall df desc : pyval,
     fetch_and_analyze (Downloaded []) <> [df; PyStr trend_na; desc]) /\
  (run_main ascii_upper no_rows_day (report_session "2330.TW")).1.1
  = Uncaught ValueError.
Proof.
  split.
  - intros df desc H. discriminate H.
  - reflexivity.
Qed.

Lemma MA_Long_short_series (series : list PricePoint) :
  (length series < 20)%nat ->
  Forall (fun c => c = None) (MA_Long (analyze_frame (series_rows series))).
Proof.
  intros Hlen. apply Forall_lookup. intros i c Hc.
  assert (Hi : (i < length series)%nat).
  { apply lookup_lt_Some in Hc. simpl in Hc.
    rewrite length_rolling_mean in Hc. unfold series_rows in Hc.
    rewrite !length_map in Hc. exact Hc. }
  rewrite (MA_Long_series series i Hi) in Hc.
  destruct (Nat.ltb_spec (i + 1) 20); [congruence | lia].
Qed.

(** C4, as amended. For an empty download [fetch_and_analyze] returns None in
    place of the frame together with the message that no price data could be
    obtained: no trend signal and no moving averages. The Undetermined signal
    N/A is what a non-empty series of fewer than 20 points yields, with a
    long moving average that is undefined throughout. *)
Theorem empty_series_reports_no_data :
  fetch_and_analyze (Downloaded []) = [PyNone; PyStr msg_no_data] /\
  forall series : list PricePoint,
    series <> [] -> (length series < 20)%nat ->
    let df := analyze_frame (series_rows series) in
    fetch_and_analyze (Downloaded (series_rows series))
    = [PyFrame df; PyStr trend_na; PyStr desc_insufficient] /\
    Forall (fun c => c = None) (MA_Long df).
Proof.
  split; [reflexivity|].
  intros series Hne Hlen df. subst df. split.
  - rewrite (fetch_success _ (series_rows_nonempty _ Hne)).
    rewrite (quant_short series Hlen). reflexivity.
  - apply MA_Long_short_series. exact Hlen.
Qed.

(** C9, refuted as stated: a raw response with a repeated and an out-of-order
    date comes back with exactly those dates. *)
Lemma unordered_rows_kept :
  exists (df : DataFrame) (trend desc : string),
    fetch_and_analyze (Downloaded unordered_rows)
    = [PyFrame df; PyStr trend; PyStr desc] /\
    Date df = [3; 1; 1]%Z /\
    ~ dates_ascending (Date df).
Proof.
  eexists _, _, _. split; [reflexivity|]. split; [reflexivity|].
  simpl. intros [H _]. lia.
Qed.

(** C9, as amended. The price-history fetch keeps the rows of the raw response
    as they come: the frame has the dates and closes of the raw response in
    the same order, repeated dates included, so its dates are unique and
    ascending exactly when those of the raw response are. *)
Theorem fetch_keeps_rows (rows : list RawRow) :
  rows <> [] ->
  exists (df : DataFrame) (trend desc : string),
    fetch_and_analyze (Downloaded rows)
    = [PyFrame df; PyStr trend; PyStr desc] /\
    Date df = map idx_Date rows /\
    Current_Price df = map Close rows /\
    (dates_ascending (Date df) <-> dates_ascending (map idx_Date rows)).
Proof.
  intros Hne. rewrite (fetch_success rows Hne).
  eexists _, _, _. split; [reflexivity|].
  split; [reflexivity|]. split; reflexivity.
Qed.

(** ** The sentiment lookup *)

Lemma ascii_upper_char_idempotent (c : ascii) :
  ascii_upper_char (ascii_upper_char c) = ascii_upper_char c.
Proof. destruct c as [[] [] [] [] [] [] [] []]; reflexivity. Qed.

Lemma ascii_upper_idempotent (s : string) :
  ascii_upper (ascii_upper s) = ascii_upper s.
Proof.
  induction s as [|c s IH]; simpl; [reflexivity|].
  rewrite ascii_upper_char_idempotent, IH. reflexivity.
Qed.

(** C6. For every symbol without an entry in the sentiment database (looked
    up, as the service does, in upper case) the lookup returns a complete
    response with the neutral emotion, a conclusion that contains the
    upper-cased symbol, and empty positive and negative news; being a total
    function of its input it has no failing case. *)
Theorem unknown_symbol_neutral (upper : string -> string)
    (symbol now : string) :
  MOCK_AI_DATABASE !! upper symbol = None ->
  let r := get_ai_analysis upper symbol now in
  emotion r = emotion_neutral /\
  contains (upper symbol) (conclusion r) /\
  positive_news r = [] /\
  negative_news r = [] /\
  ticker r = upper symbol /\
  timestamp r = now.
Proof.
  intros Hmiss r. subst r. unfold get_ai_analysis. rewrite Hmiss. simpl.
  repeat split.
  exists "AI 分析庫暫無 ", " 的文本數據，僅提供量化分析。". reflexivity.
Qed.

(** C7. The lookup upper-cases its argument before it consults the database:
    the response for [t] and the response for [t.upper()] agree in every
    field but the timestamp, and the ticker of the response is the upper-cased
    input. Upper-casing twice is upper-casing once, as for Python's
    [str.upper]. *)
Theorem lookup_normalizes_symbol (upper : string -> string)
    (t now now' : string) :
  (forall s : string, upper (upper s) = upper s) ->
  let r := get_ai_analysis upper t now in
  let r' := get_ai_analysis upper (upper t) now' in
  ticker r = upper t /\
  ticker r' = ticker r /\
  emotion r' = emotion r /\
  conclusion r' = conclusion r /\
  positive_news r' = positive_news r /\
  negative_news r' = negative_news r.
Proof.
  intros Hidem r r'. subst r r'. unfold get_ai_analysis. rewrite Hidem.
  destruct (MOCK_AI_DATABASE !! upper t); simpl; repeat split; reflexivity.
Qed.

(** ** The HTTP boundary *)

Lemma path_param_prefix (symbol : string) :
  symbol <> "" -> has_char "/" symbol = false ->
  path_param "/api/analyze/" ("/api/analyze/" +:+ symbol) = Some symbol.
Proof.
  intros Hne Hslash. unfold path_param.
  replace (strip_prefix "/api/analyze/" ("/api/analyze/" +:+ symbol))
    with (Some symbol) by reflexivity.
  rewrite Hslash. destruct symbol; [congruence | reflexivity].
Qed.

(** C8, refuted as stated: no endpoint answers under /analyze/, and the body
    served under /api/analyze/ has a field ticker and no field symbol. *)
Lemma analyze_route_not_served :
  serve ascii_upper GET "/analyze/2330.TW" "2024-01-02 09:00:00" = None /\
  exists body : json,
    serve ascii_upper GET "/api/analyze/2330.TW" "2024-01-02 09:00:00"
    = Some (200%nat, body) /\
    json_keys body = response_fields /\
    ~ In "symbol" (json_keys body).
Proof.
  split; [reflexivity|].
  eexists. split; [reflexivity|]. split; [reflexivity|].
  simpl. intros H. repeat (destruct H as [H|H]; [discriminate H|]). exact H.
Qed.

(** C8, as amended. The service answers GET /api/analyze/{ticker} with
    status 200 and a JSON body with exactly the fields ticker, timestamp,
    emotion, conclusion, positive_news and negative_news (the last two lists
    of strings); a symbol without an entry is answered with 200 as well, in
    the neutral fallback shape. *)
Theorem analyze_endpoint (upper : string -> string) (symbol now : string) :
  symbol <> "" -> has_char "/" symbol = false ->
  exists body : json,
    serve upper GET ("/api/analyze/" +:+ symbol) now = Some (200%nat, body) /\
    body = to_json (get_ai_analysis upper symbol now) /\
    json_keys body = response_fields /\
    (MOCK_AI_DATABASE !! upper symbol = None ->
     body = JObject
       [("ticker", JString (upper symbol));
        ("timestamp", JString now);
        ("emotion", JString emotion_neutral);
        ("conclusion",
         JString ("AI 分析庫暫無 " +:+ upper symbol
                  +:+ " 的文本數據，僅提供量化分析。"));
        ("positive_news", JArray []);
        ("negative_news", JArray [])]).
Proof.
  intros Hne Hslash. eexists. split; [|split; [reflexivity|split]].
  - unfold serve. rewrite (path_param_prefix symbol Hne Hslash). reflexivity.
  - reflexivity.
  - intros Hmiss. unfold get_ai_analysis. rewrite Hmiss. reflexivity.
Qed.

(** ** Running script fragments *)

Lemma emit_then {A : Type} (w : widget) (m : UI A) (st : ui_state) :
  (emit w;; m) st
  = m {| session := session st; screen := (screen st ++ [w])%list |}.
Proof. reflexivity. Qed.

Lemma mret_then {A B : Type} (a : A) (f : A -> UI B) (st : ui_state) :
  (mret a ≫= f) st = f a st.
Proof. reflexivity. Qed.

Lemma mapM_emit (g : string -> widget) (l : list string) (st : ui_state) :
  mapM (fun item => emit (g item)) l st
  = (inl (map (fun _ => tt) l),
     {| session := session st; screen := (screen st ++ map g l)%list |}).
Proof.
  revert st. induction l as [|x l IH]; intros st.
  - destruct st. simpl. rewrite app_nil_r. reflexivity.
  - change (mapM (fun item => emit (g item)) (x :: l) st)
      with ((emit (g x);; k ← mapM (fun item => emit (g item)) l;
             mret (tt :: k)) st).
    rewrite emit_then. unfold mbind at 1, UI_bind at 1. rewrite IH. simpl.
    rewrite <- app_assoc. reflexivity.
Qed.

(** The report, once the last price and date are there. *)
Lemma show_report_run (inp : inputs) (tkr : string) (df : DataFrame)
    (qt qd : pyval) (ai : AIAnalysisResponse) (price : cell) (day : Z)
    (st : ui_state) :
  last (Current_Price df) = Some price ->
  last (Date df) = Some day ->
  show_report inp tkr df qt qd ai st
  = (if clicked inp label_back then inr Rerun else inl tt,
     {| session := if clicked inp label_back
                   then <["page" := "input"]> (session st) else session st;
        screen := (screen st
                   ++ report_widgets inp tkr df qt qd ai price day)%list |}).
Proof.
  intros Hprice Hday. unfold show_report, iloc_last.
  rewrite Hprice, Hday.
  set (pos := mapM _ (positive_news ai)).
  set (neg := mapM _ (negative_news ai)).
  cbv [mbind UI_bind mret UI_ret emit set_attr halt session screen].
  subst pos. rewrite mapM_emit. cbv [session screen].
  subst neg. rewrite mapM_emit. cbv [session screen].
  unfold report_widgets. rewrite <- !app_assoc.
  destruct (clicked inp label_back); reflexivity.
Qed.

Lemma fetch_ai_analysis_run (inp : inputs) (symbol : string) (st : ui_state) :
  fetch_ai_analysis inp symbol st
  = match sentiment_of
            (http inp (API_BASE_URL +:+ "/api/analyze/" +:+ symbol)) with
    | inl b => (inl (Some b), st)
    | inr m => (inl None,
                {| session := session st;
                   screen := (screen st ++ [Error m])%list |})
    end.
Proof.
  unfold fetch_ai_analysis, sentiment_of.
  destruct (http inp _) as [| |status [b|]]; try reflexivity;
    destruct ((400 <=? status) && (status <? 600))%nat; reflexivity.
Qed.

Lemma last_map {A B : Type} (f : A -> B) (l : list A) :
  last (map f l) = f <$> last l.
Proof.
  induction l as [|a [|b l] IH]; [reflexivity..|].
  change (last (map f (b :: l)) = f <$> last (b :: l)). exact IH.
Qed.

(** The head of every run, up to the dispatch on the page. *)
Lemma run_main_dispatch (upper : string -> string) (inp : inputs)
    (ss : gmap string string) (p : string) :
  ss !! "page" = Some p ->
  main upper inp {| session := ss; screen := [] |}
  = (if String.eqb p "input" then input_page upper inp
     else if String.eqb p "report" then report_page inp
     else mret tt) {| session := ss; screen := page_head |}.
Proof.
  intros Hpage. unfold main. rewrite !emit_then.
  unfold has_key, attr, mbind, UI_bind. simpl. rewrite Hpage. simpl.
  rewrite Hpage. reflexivity.
Qed.

Lemma run_main_fresh (upper : string -> string) (inp : inputs)
    (ss : gmap string string) :
  ss !! "page" = None ->
  main upper inp {| session := ss; screen := [] |}
  = input_page upper inp
      {| session := <["ticker" := "2330.TW"]> (<["page" := "input"]> ss);
         screen := page_head |}.
Proof.
  intros Hpage. unfold main. rewrite !emit_then.
  unfold has_key, attr, set_attr, mbind, UI_bind. simpl. rewrite Hpage. simpl.
  rewrite lookup_insert_ne by discriminate. rewrite lookup_insert_eq.
  reflexivity.
Qed.

Lemma input_page_run (upper : string -> string) (inp : inputs)
    (st : ui_state) (cur : string) :
  session st !! "ticker" = Some cur ->
  input_page upper inp st
  = (if clicked inp label_generate then inr Rerun else inl tt,
     {| session :=
          (if clicked inp label_generate
           then <["page" := "report"]> else id)
            (<["ticker" := upper (default cur (typed inp))]> (session st));
        screen := (screen st ++ input_widgets cur)%list |}).
Proof.
  intros Hcur. unfold input_page. rewrite emit_then.
  unfold attr, set_attr, emit, halt, mbind, UI_bind. simpl. rewrite Hcur.
  simpl. rewrite <- !app_assoc.
  destruct (clicked inp label_generate); reflexivity.
Qed.

(** The report page after a download with rows. *)
Lemma report_page_run (inp : inputs)
    (st : ui_state) (symbol : string) (rows : list RawRow) (r : RawRow) :
  session st !! "ticker" = Some symbol ->
  yf inp symbol = Downloaded rows ->
  last rows = Some r ->
  let df := analyze_frame rows in
  report_page inp st
  = match sentiment_of
            (http inp (API_BASE_URL +:+ "/api/analyze/" +:+ symbol)) with
    | inl ai =>
        (if clicked inp label_back then inr Rerun else inl tt,
         {| session := if clicked inp label_back
                       then <["page" := "input"]> (session st)
                       else session st;
            screen := (screen st
                       ++ report_widgets inp symbol df
                            (PyStr (quant df).1) (PyStr (quant df).2) ai
                            (Close r) (idx_Date r))%list |})
    | inr m =>
        (inr (if clicked inp label_back then Rerun else Completed),
         {| session := if clicked inp label_back
                       then <["page" := "input"]> (session st)
                       else session st;
            screen := (screen st ++ [Error m; Button label_back])%list |})
    end.
Proof.
  intros Hticker Hyf Hlast df.
  assert (Hne : rows <> []) by (intros ->; discriminate Hlast).
  unfold report_page. unfold attr at 1. unfold mbind at 1, UI_bind at 1.
  rewrite Hticker, Hyf, (fetch_success rows Hne). fold df.
  unfold unpack3. rewrite mret_then.
  unfold mbind at 1, UI_bind at 1. rewrite fetch_ai_analysis_run.
  destruct (sentiment_of _) as [ai|m].
  - unfold as_frame. rewrite mret_then.
    apply show_report_run.
    + unfold df. simpl. rewrite last_map, Hlast. reflexivity.
    + unfold df. simpl. rewrite last_map, Hlast. reflexivity.
  - rewrite emit_then. unfold set_attr, halt, mbind, UI_bind. simpl.
    rewrite <- !app_assoc.
    destruct (clicked inp label_back); reflexivity.
Qed.

(** ** Whole runs of the script *)

Lemma run_main_of (upper : string -> string) (inp : inputs)
    (ss : gmap string string) (r : unit + ending) (st : ui_state) :
  main upper inp {| session := ss; screen := [] |} = (r, st) ->
  run_main upper inp ss
  = (match r with inl _ => Completed | inr e => e end, session st, screen st).
Proof. intros H. unfold run_main. rewrite H. destruct r; reflexivity. Qed.

Lemma run_input (upper : string -> string) (inp : inputs)
    (ss : gmap string string) (cur : string) :
  ss !! "page" = Some "input" ->
  ss !! "ticker" = Some cur ->
  run_main upper inp ss
  = (if clicked inp label_generate then Rerun else Completed,
     (if clicked inp label_generate then <["page" := "report"]> else id)
       (<["ticker" := upper (default cur (typed inp))]> ss),
     (page_head ++ input_widgets cur)%list).
Proof.
  intros Hpage Hticker.
  erewrite run_main_of.
  2:{ rewrite (run_main_dispatch upper inp ss "input" Hpage). simpl.
      apply input_page_run. exact Hticker. }
  simpl. destruct (clicked inp label_generate); reflexivity.
Qed.

Lemma run_fresh (upper : string -> string) (inp : inputs)
    (ss : gmap string string) :
  ss !! "page" = None ->
  run_main upper inp ss
  = (if clicked inp label_generate then Rerun else Completed,
     (if clicked inp label_generate then <["page" := "report"]> else id)
       (<["ticker" := upper (default "2330.TW" (typed inp))]>
          (<["ticker" := "2330.TW"]> (<["page" := "input"]> ss))),
     (page_head ++ input_widgets "2330.TW")%list).
Proof.
  intros Hpage.
  erewrite run_main_of.
  2:{ rewrite (run_main_fresh upper inp ss Hpage).
      apply input_page_run. simpl. apply lookup_insert_eq. }
  simpl. destruct (clicked inp label_generate); reflexivity.
Qed.

Lemma run_other (upper : string -> string) (inp : inputs)
    (ss : gmap string string) (p : string) :
  ss !! "page" = Some p -> p <> "input" -> p <> "report" ->
  run_main upper inp ss = (Completed, ss, page_head).
Proof.
  intros Hpage Hi Hr.
  erewrite run_main_of.
  2:{ rewrite (run_main_dispatch upper inp ss p Hpage).
      apply String.eqb_neq in Hi, Hr. rewrite Hi, Hr. reflexivity. }
  reflexivity.
Qed.

Lemma run_report (upper : string -> string) (inp : inputs)
    (ss : gmap string string) (symbol : string) (rows : list RawRow)
    (r : RawRow) :
  ss !! "page" = Some "report" ->
  ss !! "ticker" = Some symbol ->
  yf inp symbol = Downloaded rows ->
  last rows = Some r ->
  let df := analyze_frame rows in
  run_main upper inp ss
  = (if clicked inp label_back then Rerun else Completed,
     if clicked inp label_back then <["page" := "input"]> ss else ss,
     (page_head ++
      match sentiment_of
              (http inp (API_BASE_URL +:+ "/api/analyze/" +:+ symbol)) with
      | inl ai =>
          report_widgets inp symbol df (PyStr (quant df).1)
            (PyStr (quant df).2) ai (Close r) (idx_Date r)
      | inr m => [Error m; Button label_back]
      end)%list).
Proof.
  intros Hpage Hticker Hyf Hlast df.
  unfold run_main.
  rewrite (run_main_dispatch upper inp ss "report" Hpage).
  change (String.eqb "report" "input") with false.
  change (String.eqb "report" "report") with true. cbv iota.
  rewrite (report_page_run inp {| session := ss; screen := page_head |}
             symbol rows r Hticker Hyf Hlast).
  fold df. cbv [session screen].
  destruct (sentiment_of _); destruct (clicked inp label_back); reflexivity.
Qed.

(** ** The sentiment client *)


(** ** The pages of the script *)

(** X2. On the input page a run shows the hint, the text box with the stored
    ticker and the generate button; it stores the upper-cased content of the
    text box as the ticker; it moves to the report page and asks for a rerun
    exactly when the generate button was clicked; and it neither downloads
    prices nor calls the sentiment service. *)
Theorem input_page_stores_ticker (upper : string -> string) (inp : inputs)
    (ss : gmap string string) (cur : string) :
  ss !! "page" = Some "input" ->
  ss !! "ticker" = Some cur ->
  run_main upper inp ss
  = (if clicked inp label_generate then Rerun else Completed,
     (if clicked inp label_generate then <["page" := "report"]> else id)
       (<["ticker" := upper (default cur (typed inp))]> ss),
     (page_head ++ input_widgets cur)%list) /\
  (forall (y : string -> download) (h : string -> requests_get),
     run_main upper (with_network inp y h) ss = run_main upper inp ss).
Proof.
  intros Hpage Hticker. split.
  - exact (run_input upper inp ss cur Hpage Hticker).
  - intros y h.
    rewrite (run_input upper inp ss cur Hpage Hticker).
    exact (run_input upper (with_network inp y h) ss cur Hpage Hticker).
Qed.

(** X3. A run on a session state without a page starts on the input page with
    the default ticker 2330.TW in the text box, whatever ticker was stored
    before; afterwards the session state holds a page (report after a click on
    the generate button, input otherwise) and the upper-cased content of the
    text box as the ticker. *)
Theorem first_run_opens_input_page (upper : string -> string) (inp : inputs)
    (ss : gmap string string) :
  ss !! "page" = None ->
  (run_main upper inp ss).1.1
  = (if clicked inp label_generate then Rerun else Completed) /\
  (run_main upper inp ss).2 = (page_head ++ input_widgets "2330.TW")%list /\
  (run_main upper inp ss).1.2 !! "page"
  = Some (if clicked inp label_generate then "report" else "input") /\
  (run_main upper inp ss).1.2 !! "ticker"
  = Some (upper (default "2330.TW" (typed inp))).
Proof.
  intros Hpage. rewrite (run_fresh upper inp ss Hpage).
  split; [reflexivity|]. split; [reflexivity|].
  cbv [fst snd]. destruct (clicked inp label_generate).
  - split.
    + apply lookup_insert_eq.
    + rewrite lookup_insert_ne by discriminate. apply lookup_insert_eq.
  - split.
    + unfold id. rewrite !lookup_insert_ne by discriminate.
      apply lookup_insert_eq.
    + apply lookup_insert_eq.
Qed.



(** How a run from a session state with its keys ends: in the ValueError of
    the failed fetch, or without an exception and with both keys stored and
    no other key touched. *)
Lemma run_main_cases (upper : string -> string) (inp : inputs)
    (ss : gmap string string) :
  ss !! "page" = None \/ is_Some (ss !! "ticker") ->
  (exists symbol : string,
     ss !! "page" = Some "report" /\ ss !! "ticker" = Some symbol /\
     fetch_fails (yf inp symbol) /\
     run_main upper inp ss = (Uncaught ValueError, ss, page_head)) \/
  (((run_main upper inp ss).1.1 = Completed \/
    (run_main upper inp ss).1.1 = Rerun) /\
   session_ready (run_main upper inp ss).1.2 /\
   (forall k : string, k <> "page" -> k <> "ticker" ->
      (run_main upper inp ss).1.2 !! k = ss !! k) /\
   ~ (ss !! "page" = Some "report" /\
      exists symbol : string,
        ss !! "ticker" = Some symbol /\ fetch_fails (yf inp symbol))).
Proof.
  intros Hkeys.
  destruct (ss !! "page") as [p|] eqn:Hpage.
  - destruct Hkeys as [H|[cur Hticker]]; [discriminate H|].
    destruct (decide (p = "input")) as [->|Hi];
      [|destruct (decide (p = "report")) as [->|Hr]].
    + right. rewrite (run_input upper inp ss cur Hpage Hticker).
      cbv [fst snd]. split; [|split; [|split]].
      * destruct (clicked inp label_generate); auto.
      * unfold session_ready.
        destruct (clicked inp label_generate); unfold id;
          rewrite ?lookup_insert_eq, ?(lookup_insert_ne _ "page" "ticker"),
            ?(lookup_insert_ne _ "ticker" "page"), ?lookup_insert_eq, ?Hpage
            by discriminate; split; eauto.
      * intros k Hk1 Hk2.
        destruct (clicked inp label_generate); unfold id;
          rewrite !lookup_insert_ne by congruence; reflexivity.
      * intros [H _]. discriminate H.
    + destruct (yf inp cur) as [|rows] eqn:Hyf.
      { left. exists cur.
        assert (Hf : fetch_fails (yf inp cur)) by (rewrite Hyf; now left).
        split; [reflexivity|]. split; [exact Hticker|]. split; [exact Hf|].
        exact (run_main_failed_fetch upper inp ss cur Hpage Hticker Hf). }
      destruct (last rows) as [r|] eqn:Hlast.
      * right.
        rewrite (run_report upper inp ss cur rows r Hpage Hticker Hyf Hlast).
        cbv [fst snd]. split; [|split; [|split]].
        -- destruct (clicked inp label_back); auto.
        -- unfold session_ready.
           destruct (clicked inp label_back);
             rewrite ?lookup_insert_eq, ?lookup_insert_ne, ?Hpage, ?Hticker
               by discriminate; split; eauto.
        -- intros k Hk1 Hk2. destruct (clicked inp label_back);
             rewrite ?lookup_insert_ne by congruence; reflexivity.
        -- intros [_ (s & Hs & Hf)]. rewrite Hticker in Hs. simplify_eq.
           rewrite Hyf in Hf. destruct Hf as [Hf|Hf]; [discriminate Hf|].
           simplify_eq; discriminate.
      * apply last_None in Hlast. subst rows. left. exists cur.
        assert (Hf : fetch_fails (yf inp cur)) by (rewrite Hyf; now right).
        split; [reflexivity|]. split; [exact Hticker|]. split; [exact Hf|].
        exact (run_main_failed_fetch upper inp ss cur Hpage Hticker Hf).
    + right. rewrite (run_other upper inp ss p Hpage Hi Hr).
      cbv [fst snd]. split; [auto|]. split; [|split].
      * unfold session_ready. rewrite Hpage, Hticker. eauto.
      * reflexivity.
      * intros [H _]. congruence.
  - right. clear Hkeys. assert (Hpage' := Hpage).
    apply (run_fresh upper inp) in Hpage'. rewrite Hpage'.
    cbv [fst snd]. split; [|split; [|split]].
    + destruct (clicked inp label_generate); auto.
    + unfold session_ready.
      destruct (clicked inp label_generate); unfold id;
        rewrite ?lookup_insert_eq, ?(lookup_insert_ne _ "page" "ticker"),
          ?(lookup_insert_ne _ "ticker" "page"), ?lookup_insert_eq
          by discriminate; split; eauto.
    + intros k Hk1 Hk2.
      destruct (clicked inp label_generate); unfold id;
        rewrite !lookup_insert_ne by congruence; exact eq_refl.
    + intros [H _]. discriminate H.
Qed.


(** A run never leaves the two pages of the script. *)
Lemma run_main_known_page (upper : string -> string) (inp : inputs)
    (ss : gmap string string) :
  ss !! "page" = None \/ (is_Some (ss !! "ticker") /\ known_page ss) ->
  known_page (run_main upper inp ss).1.2.
Proof.
  intros [Hpage|[[cur Hticker] [Hpage|Hpage]]].
  - rewrite (run_fresh upper inp ss Hpage). cbv [fst snd]. unfold known_page.
    destruct (clicked inp label_generate); unfold id.
    + right. apply lookup_insert_eq.
    + left. rewrite !lookup_insert_ne by discriminate.
      apply lookup_insert_eq.
  - rewrite (run_input upper inp ss cur Hpage Hticker). cbv [fst snd].
    unfold known_page. destruct (clicked inp label_generate); unfold id.
    + right. apply lookup_insert_eq.
    + left. rewrite lookup_insert_ne by discriminate. exact Hpage.
  - destruct (yf inp cur) as [|rows] eqn:Hyf.
    { rewrite (run_main_failed_fetch upper inp ss cur Hpage Hticker)
        by (rewrite Hyf; now left).
      right. exact Hpage. }
    destruct (last rows) as [r|] eqn:Hlast.
    + rewrite (run_report upper inp ss cur rows r Hpage Hticker Hyf Hlast).
      cbv [fst snd]. unfold known_page. destruct (clicked inp label_back).
      * left. apply lookup_insert_eq.
      * right. exact Hpage.
    + apply last_None in Hlast. subst rows.
      rewrite (run_main_failed_fetch upper inp ss cur Hpage Hticker)
        by (rewrite Hyf; now right).
      right. exact Hpage.
Qed.

(** X7. From a session state that has no page yet, or has a ticker, every run
    leaves a session state that holds both a page and a ticker, and it writes
    no key other than these two; when the page was missing or one of input
    and report, it is one of input and report afterwards. So the next run
    starts from such a state again. *)
Theorem session_keys_preserved (upper : string -> string) (inp : inputs)
    (ss : gmap string string) :
  ss !! "page" = None \/ is_Some (ss !! "ticker") ->
  session_ready (run_main upper inp ss).1.2 /\
  (forall k : string, k <> "page" -> k <> "ticker" ->
     (run_main upper inp ss).1.2 !! k = ss !! k) /\
  (ss !! "page" = None \/ known_page ss ->
   known_page (run_main upper inp ss).1.2).
Proof.
  intros Hkeys. split; [|split].
  - destruct (run_main_cases upper inp ss Hkeys)
      as [(symbol & Hpage & Hticker & Hf & Hrun)|(_ & Hready & _ & _)];
      [|exact Hready].
    rewrite Hrun. unfold session_ready. cbv [fst snd].
    rewrite Hpage, Hticker. eauto.
  - destruct (run_main_cases upper inp ss Hkeys)
      as [(symbol & Hpage & Hticker & Hf & Hrun)|(_ & _ & Hframe & _)];
      [|exact Hframe].
    rewrite Hrun. reflexivity.
  - intros [Hpage|Hknown]; apply run_main_known_page; [now left|].
    destruct Hkeys as [Hpage|Hticker]; [now left | right; auto].
Qed.


(** ** Rolling means over columns with NaN *)

Lemma length_valid_obs (win : list cell) :
  (length (valid_obs win) <= length win)%nat.
Proof.
  unfold valid_obs. induction win as [|[q|] win IH]; cbn in *; lia.
Qed.


Lemma valid_obs_nan (win : list cell) (k : nat) :
  win !! k = Some None -> (length (valid_obs win) < length win)%nat.
Proof.
  revert k. induction win as [|c win IH]; intros k Hk; [discriminate|].
  destruct k as [|k].
  - injection Hk as ->. pose proof (length_valid_obs win) as Hle.
    unfold valid_obs in *. cbn. lia.
  - apply IH in Hk. unfold valid_obs in *. destruct c; cbn; lia.
Qed.





(** ** Rows of the analysed frame of any download *)
















(** ** The sentiment table and its endpoint *)

Lemma database_entries (k : string) (a : Analysis) :
  MOCK_AI_DATABASE !! k = Some a ->
  db_emotion a <> emotion_neutral /\
  db_positive_news a <> [] /\ db_negative_news a <> [].
Proof.
  unfold MOCK_AI_DATABASE.
  rewrite !lookup_insert_Some, lookup_empty.
  intros [[_ <-]|[_ [[_ <-]|[_ [[_ <-]|[_ H]]]]]];
    [| | |discriminate H]; repeat split; discriminate.
Qed.

(** X13. A response of the sentiment lookup shows whether the symbol was in
    the table: the emotion is the neutral one exactly when the upper-cased
    symbol has no entry, and so is each of the two news lists empty exactly
    then. *)
Theorem neutral_iff_unknown (upper : string -> string) (symbol now : string) :
  (emotion (get_ai_analysis upper symbol now) = emotion_neutral <->
   MOCK_AI_DATABASE !! upper symbol = None) /\
  (positive_news (get_ai_analysis upper symbol now) = [] <->
   MOCK_AI_DATABASE !! upper symbol = None) /\
  (negative_news (get_ai_analysis upper symbol now) = [] <->
   MOCK_AI_DATABASE !! upper symbol = None).
Proof.
  unfold get_ai_analysis.
  destruct (MOCK_AI_DATABASE !! upper symbol) as [a|] eqn:Ha.
  - destruct (database_entries _ a Ha) as (He & Hp & Hn). simpl.
    repeat split; intros H; solve [discriminate H | contradiction].
  - simpl. repeat split; reflexivity.
Qed.



(** ** The stock name of the report header *)

Lemma replace_from_step (old new : string) (c : ascii) (r : string) :
  replace_from old new 0 (String c r)
  = if String.prefix old (String c r)
    then new +:+ replace_from old new (String.length old - 1) r
    else String c (replace_from old new 0 r).
Proof. reflexivity. Qed.

Lemma prefix_other_head (a b : ascii) (p s : string) :
  a <> b -> String.prefix (String a p) (String b s) = false.
Proof. intros Hne. simpl. destruct (ascii_dec a b); congruence. Qed.

Lemma prefix_append (p s : string) : String.prefix p (p +:+ s) = true.
Proof.
  induction p as [|a p IH]; [destruct s; reflexivity|].
  change (String a p +:+ s) with (String a (p +:+ s)). simpl.
  destruct (ascii_dec a a); [exact IH | congruence].
Qed.

Lemma replace_dot_free (old new : string) (c : ascii) (s : string) :
  has_char c s = false ->
  replace_from (String c old) new 0 s = s.
Proof.
  induction s as [|a s IH]; [reflexivity|].
  intros Hs. simpl in Hs.
  destruct (Ascii.eqb_spec a c) as [->|Hne]; [discriminate|].
  rewrite replace_from_step, prefix_other_head by congruence.
  f_equal. exact (IH Hs).
Qed.

(** X15. The stock name in the report header is the ticker with its [.TW]
    removed: for a ticker made of a part without a dot, [.TW] and a rest
    without a dot, the name is the part followed by the rest. So [2330.TW]
    gives [2330], a ticker without a dot is kept, and a ticker ending in
    [.TWO] keeps its final O. *)
Theorem stock_name_drops_suffix (base rest : string) :
  has_char "." base = false ->
  has_char "." rest = false ->
  str_replace ".TW" "" (base +:+ ".TW" +:+ rest) = base +:+ rest /\
  str_replace ".TW" "" base = base.
Proof.
  intros Hbase Hrest. unfold str_replace. split.
  - induction base as [|a base IH].
    + change ("" +:+ ".TW" +:+ rest) with (String "." ("TW" +:+ rest)).
      change ("" +:+ rest) with rest.
      rewrite replace_from_step.
      change (String "." ("TW" +:+ rest)) with (".TW" +:+ rest).
      rewrite prefix_append.
      change (replace_from ".TW" "" 0 rest = rest).
      apply (replace_dot_free "TW" "" "." rest Hrest).
    + change (String a base +:+ ".TW" +:+ rest)
        with (String a (base +:+ ".TW" +:+ rest)).
      change (String a base +:+ rest) with (String a (base +:+ rest)).
      simpl in Hbase.
      destruct (Ascii.eqb_spec a ".") as [->|Hne]; [discriminate|].
      rewrite replace_from_step, prefix_other_head by congruence.
      f_equal. exact (IH Hbase).
  - apply (replace_dot_free "TW" "" "." base Hbase).
Qed.

(** ** Instances on concrete runs *)




(** C4 (amended) on a series of three days. *)
Lemma empty_series_reports_no_data_witness :
  short_series <> [] /\ (length short_series < 20)%nat /\
  fetch_and_analyze (Downloaded (series_rows short_series))
  = [PyFrame (analyze_frame (series_rows short_series));
     PyStr trend_na; PyStr desc_insufficient] /\
  Forall (fun c => c = None)
         (MA_Long (analyze_frame (series_rows short_series))).
Proof.
  assert (Hne : short_series <> []) by discriminate.
  assert (Hlen : (length short_series < 20)%nat) by (vm_compute; lia).
  split; [exact Hne|]. split; [exact Hlen|].
  destruct empty_series_reports_no_data as [_ Hshort].
  exact (Hshort short_series Hne Hlen).
Defined.

(** C5 on a day without rows for the symbol, on the report page for 2330.TW. *)
Lemma failed_price_fetch_fails_report_witness :
  report_session "2330.TW" !! "page" = Some "report" /\
  report_session "2330.TW" !! "ticker" = Some "2330.TW" /\
  fetch_fails (yf no_rows_day "2330.TW") /\
  (exists e : exn,
     (run_main ascii_upper no_rows_day (report_session "2330.TW")).1.1
     = Uncaught e) /\
  forallb (fun w => negb (report_widget w))
    (run_main ascii_upper no_rows_day (report_session "2330.TW")).2 = true /\
  (forall h : string -> requests_get,
     run_main ascii_upper (with_http no_rows_day h) (report_session "2330.TW")
     = run_main ascii_upper no_rows_day (report_session "2330.TW")).
Proof.
  assert (Hpage : report_session "2330.TW" !! "page" = Some "report")
    by reflexivity.
  assert (Hticker : report_session "2330.TW" !! "ticker" = Some "2330.TW")
    by reflexivity.
  assert (Hfail : fetch_fails (yf no_rows_day "2330.TW"))
    by (right; reflexivity).
  split; [exact Hpage|]. split; [exact Hticker|]. split; [exact Hfail|].
  exact (failed_price_fetch_fails_report ascii_upper no_rows_day
           (report_session "2330.TW") "2330.TW" Hpage Hticker Hfail).
Defined.

(** C6 for the symbol 9999.xx, with ASCII upper-casing. *)
Lemma unknown_symbol_neutral_witness :
  MOCK_AI_DATABASE !! ascii_upper "9999.xx" = None /\
  (let r := get_ai_analysis ascii_upper "9999.xx" "2024-01-02 09:00:00" in
   emotion r = emotion_neutral /\
   contains (ascii_upper "9999.xx") (conclusion r) /\
   positive_news r = [] /\
   negative_news r = [] /\
   ticker r = ascii_upper "9999.xx" /\
   timestamp r = "2024-01-02 09:00:00").
Proof.
  split; [reflexivity|].
  apply (unknown_symbol_neutral ascii_upper "9999.xx" "2024-01-02 09:00:00").
  reflexivity.
Defined.

(** C7 for the symbol 2330.tw, with ASCII upper-casing. *)
Lemma lookup_normalizes_symbol_witness :
  (forall s : string, ascii_upper (ascii_upper s) = ascii_upper s) /\
  (let r := get_ai_analysis ascii_upper "2330.tw" "2024-01-02 09:00:00" in
   let r' := get_ai_analysis ascii_upper (ascii_upper "2330.tw")
               "2024-01-02 09:00:05" in
   ticker r = ascii_upper "2330.tw" /\
   ticker r' = ticker r /\
   emotion r' = emotion r /\
   conclusion r' = conclusion r /\
   positive_news r' = positive_news r /\
   negative_news r' = negative_news r).
Proof.
  split; [exact ascii_upper_idempotent|].
  exact (lookup_normalizes_symbol ascii_upper "2330.tw"
           "2024-01-02 09:00:00" "2024-01-02 09:00:05"
           ascii_upper_idempotent).
Defined.

(** C8 (amended) for the path /api/analyze/9999.xx. *)
Lemma analyze_endpoint_witness :
  "9999.xx" <> "" /\ has_char "/" "9999.xx" = false /\
  exists body : json,
    serve ascii_upper GET ("/api/analyze/" +:+ "9999.xx")
      "2024-01-02 09:00:00" = Some (200%nat, body) /\
    body = to_json (get_ai_analysis ascii_upper "9999.xx"
                      "2024-01-02 09:00:00") /\
    json_keys body = response_fields /\
    (MOCK_AI_DATABASE !! ascii_upper "9999.xx" = None ->
     body = JObject
       [("ticker", JString (ascii_upper "9999.xx"));
        ("timestamp", JString "2024-01-02 09:00:00");
        ("emotion", JString emotion_neutral);
        ("conclusion",
         JString ("AI 分析庫暫無 " +:+ ascii_upper "9999.xx"
                  +:+ " 的文本數據，僅提供量化分析。"));
        ("positive_news", JArray []);
        ("negative_news", JArray [])]).
Proof.
  assert (Hne : "9999.xx" <> "") by discriminate.
  assert (Hslash : has_char "/" "9999.xx" = false) by reflexivity.
  split; [exact Hne|]. split; [exact Hslash|].
  exact (analyze_endpoint ascii_upper "9999.xx" "2024-01-02 09:00:00"
           Hne Hslash).
Defined.

(** C9 (amended) on a raw response with a repeated and an out-of-order date. *)
Lemma fetch_keeps_rows_witness :
  unordered_rows <> [] /\
  exists (df : DataFrame) (trend desc : string),
    fetch_and_analyze (Downloaded unordered_rows)
    = [PyFrame df; PyStr trend; PyStr desc] /\
    Date df = map idx_Date unordered_rows /\
    Current_Price df = map Close unordered_rows /\
    (dates_ascending (Date df)
     <-> dates_ascending (map idx_Date unordered_rows)).
Proof.
  assert (Hne : unordered_rows <> []) by discriminate.
  split; [exact Hne|]. exact (fetch_keeps_rows unordered_rows Hne).
Defined.

(** C10 on a day without rows for the symbol, on the report page for 2330.TW. *)
Lemma failure_tuple_breaks_unpacking_witness :
  report_session "2330.TW" !! "page" = Some "report" /\
  report_session "2330.TW" !! "ticker" = Some "2330.TW" /\
  fetch_fails (yf no_rows_day "2330.TW") /\
  run_main ascii_upper no_rows_day (report_session "2330.TW")
  = (Uncaught ValueError, report_session "2330.TW", page_head).
Proof.
  assert (Hpage : report_session "2330.TW" !! "page" = Some "report")
    by reflexivity.
  assert (Hticker : report_session "2330.TW" !! "ticker" = Some "2330.TW")
    by reflexivity.
  assert (Hfail : fetch_fails (yf no_rows_day "2330.TW"))
    by (right; reflexivity).
  split; [exact Hpage|]. split; [exact Hticker|]. split; [exact Hfail|].
  destruct (failure_tuple_breaks_unpacking ascii_upper no_rows_day
              (report_session "2330.TW") "2330.TW" Hpage Hticker)
    as (_ & _ & Hrun).
  exact (proj1 (Hrun Hfail)).
Defined.

(** X2 on the input page for 2330.TW, with 0050.tw typed and the generate
    button clicked. *)
Lemma input_page_stores_ticker_witness :
  input_session "2330.TW" !! "page" = Some "input" /\
  input_session "2330.TW" !! "ticker" = Some "2330.TW" /\
  run_main ascii_upper (user_does rising_day (Some "0050.tw") label_generate)
    (input_session "2330.TW")
  = (Rerun,
     <["page" := "report"]>
       (<["ticker" := "0050.TW"]> (input_session "2330.TW")),
     (page_head ++ input_widgets "2330.TW")%list) /\
  (forall (y : string -> download) (h : string -> requests_get),
     run_main ascii_upper
       (with_network (user_does rising_day (Some "0050.tw") label_generate)
          y h)
       (input_session "2330.TW")
     = run_main ascii_upper
         (user_does rising_day (Some "0050.tw") label_generate)
         (input_session "2330.TW")).
Proof.
  assert (Hpage : input_session "2330.TW" !! "page" = Some "input")
    by reflexivity.
  assert (Hticker : input_session "2330.TW" !! "ticker" = Some "2330.TW")
    by reflexivity.
  split; [exact Hpage|]. split; [exact Hticker|].
  exact (input_page_stores_ticker ascii_upper
           (user_does rising_day (Some "0050.tw") label_generate)
           (input_session "2330.TW") "2330.TW" Hpage Hticker).
Defined.

(** X3 on an empty session state. *)
Lemma first_run_opens_input_page_witness :
  (∅ : gmap string string) !! "page" = None /\
  (run_main ascii_upper rising_day ∅).1.1 = Completed /\
  (run_main ascii_upper rising_day ∅).2
  = (page_head ++ input_widgets "2330.TW")%list /\
  (run_main ascii_upper rising_day ∅).1.2 !! "page" = Some "input" /\
  (run_main ascii_upper rising_day ∅).1.2 !! "ticker" = Some "2330.TW".
Proof.
  assert (Hpage : (∅ : gmap string string) !! "page" = None) by reflexivity.
  split; [exact Hpage|].
  exact (first_run_opens_input_page ascii_upper rising_day ∅ Hpage).
Defined.




(** X7 on an empty session state. *)
Lemma session_keys_preserved_witness :
  ((∅ : gmap string string) !! "page" = None \/
   is_Some ((∅ : gmap string string) !! "ticker")) /\
  session_ready (run_main ascii_upper rising_day ∅).1.2 /\
  (forall k : string, k <> "page" -> k <> "ticker" ->
     (run_main ascii_upper rising_day ∅).1.2 !! k
     = (∅ : gmap string string) !! k) /\
  ((∅ : gmap string string) !! "page" = None \/ known_page ∅ ->
   known_page (run_main ascii_upper rising_day ∅).1.2).
Proof.
  assert (Hkeys : (∅ : gmap string string) !! "page" = None \/
                  is_Some ((∅ : gmap string string) !! "ticker"))
    by (left; reflexivity).
  split; [exact Hkeys|].
  exact (session_keys_preserved ascii_upper rising_day ∅ Hkeys).
Defined.




(** X15 on the ticker 2330.TW. *)
Lemma stock_name_drops_suffix_witness :
  has_char "." "2330" = false /\
  has_char "." "" = false /\
  str_replace ".TW" "" ("2330" +:+ ".TW" +:+ "") = "2330" +:+ "" /\
  str_replace ".TW" "" "2330" = "2330".
Proof.
  assert (Hbase : has_char "." "2330" = false) by reflexivity.
  assert (Hrest : has_char "." "" = false) by reflexivity.
  split; [exact Hbase|]. split; [exact Hrest|].
  exact (stock_name_drops_suffix "2330" "" Hbase Hrest).
Defined.
